(** * CFreeTDS.h: the platform shim that forwards to the FreeTDS headers

  The repository's only source file, [Sources/CFreeTDS/include/CFreeTDS.h],
  is a C header made of preprocessor directives: an include guard, a
  [#pragma once], and two nested [#ifdef] conditionals that pick the
  location of [sybdb.h] and [sybfront.h].

  The header is a program for the C preprocessor.  It is embedded here as
  a computation in a small state monad whose state is the preprocessor's
  own: the table of defined macros, the files marked [#pragma once], and
  the [#include] directives reached so far.  Each directive of the header
  is one combinator, so [CFreeTDS_h] below reads line for line like the
  file.  The vendor headers are not part of the repository: including one
  is recorded as a request and resolved against a model of the file
  system, its text is not interpreted. *)

From Stdlib Require Import Ascii String List Bool.
From stdpp Require Import base decidable option list gmap sets strings.
Import ListNotations.

Local Open Scope string_scope.
Local Open Scope list_scope.

(** ** The C preprocessor, as far as the header uses it *)

Module Cpp.

(** The two forms of [#include]. *)
Inductive include_form := Quoted | Angled.

(** One [#include] directive: [#include "path"] or [#include <path>]. *)
Record include_req := Include { form : include_form; path : string }.

#[global] Instance include_form_eq_dec : EqDecision include_form.
Proof. solve_decision. Defined.

#[global] Instance include_req_eq_dec : EqDecision include_req.
Proof. solve_decision. Defined.

(** Preprocessor state while a translation unit is read. *)
Record pp_state := PPState {
  macros : gset string;        (* names currently #define'd *)
  once : gset string;          (* files that executed #pragma once *)
  trace : list include_req     (* #include directives reached, in order *)
}.

(** A directive is a state transformer that may return a value. *)
Definition PP (A : Type) : Type := pp_state -> A * pp_state.

#[global] Instance pp_ret : MRet PP := fun A a st => (a, st).

#[global] Instance pp_bind : MBind PP :=
  fun A B k m st => let '(a, st') := m st in k a st'.

Definition exec {A} (m : PP A) (st : pp_state) : pp_state := snd (m st).

Definition skip : PP unit := mret tt.

(** [defined(m)] *)
Definition defined (m : string) : PP bool :=
  fun st => (bool_decide (m ∈ macros st), st).

(** [#define m] *)
Definition define (m : string) : PP unit :=
  fun st => (tt, PPState ({[ m ]} ∪ macros st) (once st) (trace st)).

(** [#ifdef m] ... [#else] ... [#endif] *)
Definition ifdef (m : string) (thn els : PP unit) : PP unit :=
  defined m ≫= fun d : bool => if d then thn else els.

(** [#ifndef m] ... [#endif] *)
Definition ifndef (m : string) (body : PP unit) : PP unit :=
  defined m ≫= fun d : bool => if d then skip else body.

(** [#pragma once], executed while reading [file]. *)
Definition pragma_once (file : string) : PP unit :=
  fun st => (tt, PPState (macros st) ({[ file ]} ∪ once st) (trace st)).

(** [#include "p"] and [#include <p>]: the directive is reached. *)
Definition include (f : include_form) (p : string) : PP unit :=
  fun st => (tt, PPState (macros st) (once st) (trace st ++ [Include f p])).

Definition include_quoted : string -> PP unit := include Quoted.
Definition include_angled : string -> PP unit := include Angled.

(** Reading [file] from an [#include] of the translation unit: a file that
    has executed [#pragma once] is not read again. *)
Definition include_file (file : string) (body : PP unit) : PP unit :=
  fun st => if bool_decide (file ∈ once st) then skip st else body st.

(** The same directive sequence read [n] times in a row. *)
Fixpoint times (n : nat) (m : PP unit) : PP unit :=
  match n with
  | O => skip
  | S n' => m ;; times n' m
  end.

(** The state in which a translation unit starts: the macro table the
    compiler and the command line provide, nothing included yet. *)
Definition start (D : gset string) : pp_state := PPState D ∅ [].

End Cpp.

(** ** The header *)

Module CFreeTDS.
Import Cpp.

(** The name under which the header marks itself [#pragma once]. *)
Definition this_file : string := "CFreeTDS.h".

(** [Sources/CFreeTDS/include/CFreeTDS.h], directive by directive. *)
Definition CFreeTDS_h : PP unit :=
  ifndef "CFREETDS_H" (
    define "CFREETDS_H" ;;

    pragma_once this_file ;;

    ifdef "__APPLE__"
      (ifdef "__x86_64__"
         (include_quoted "/usr/local/opt/freetds/include/sybdb.h" ;;
          include_quoted "/usr/local/opt/freetds/include/sybfront.h")
         (* #else *)
         (include_quoted "/opt/homebrew/opt/freetds/include/sybdb.h" ;;
          include_quoted "/opt/homebrew/opt/freetds/include/sybfront.h"))
      (* #else *)
      (include_angled "sybdb.h" ;;
       include_angled "sybfront.h")
  ).

(** [#include "CFreeTDS.h"] in a translation unit. *)
Definition include_CFreeTDS : PP unit := include_file this_file CFreeTDS_h.

(** The [#include] directives a translation unit reaches when it starts
    with macro table [D] and includes the header. *)
Definition requests (D : gset string) : list include_req :=
  trace (exec include_CFreeTDS (start D)).

(** The directives of the three branches, as the file spells them:
    lines 8-9, lines 11-12 and lines 15-16. *)
Inductive branch := UsrLocal | Homebrew | SystemPath.

Definition branch_requests (b : branch) : list include_req :=
  match b with
  | UsrLocal =>
      [ Include Quoted "/usr/local/opt/freetds/include/sybdb.h";
        Include Quoted "/usr/local/opt/freetds/include/sybfront.h" ]
  | Homebrew =>
      [ Include Quoted "/opt/homebrew/opt/freetds/include/sybdb.h";
        Include Quoted "/opt/homebrew/opt/freetds/include/sybfront.h" ]
  | SystemPath =>
      [ Include Angled "sybdb.h";
        Include Angled "sybfront.h" ]
  end.

(** The file name of a directive's path: the text after its last [/]. *)
Fixpoint after_last_slash (s : string) : option string :=
  match s with
  | EmptyString => None
  | String c s' =>
      match after_last_slash s' with
      | Some b => Some b
      | None => if Ascii.eqb c "/"%char then Some s' else None
      end
  end.

Definition header_name (r : include_req) : string :=
  default (path r) (after_last_slash (path r)).

(** The state after the guard is passed: the guard name is defined and the
    file is marked, before any conditional is evaluated. *)
Definition guarded (st : pp_state) : pp_state :=
  PPState ({[ "CFREETDS_H" ]} ∪ macros st) ({[ this_file ]} ∪ once st) (trace st).

Definition extend (st : pp_state) (rs : list include_req) : pp_state :=
  PPState (macros st) (once st) (trace st ++ rs).

(** The branch the two platform macros select. *)
Definition selected (D : gset string) : branch :=
  if bool_decide ("__APPLE__" ∈ D)
  then if bool_decide ("__x86_64__" ∈ D) then UsrLocal else Homebrew
  else SystemPath.

End CFreeTDS.

(** ** Build targets *)

Module Target.

Inductive os := MacOS | IOS | Linux | Windows | FreeBSD.

Inductive arch := X86_64 | Arm64 | I386 | Armv7 | Riscv64.

Record target := Target { target_os : os; target_arch : arch }.

#[global] Instance os_eq_dec : EqDecision os.
Proof. solve_decision. Defined.

#[global] Instance arch_eq_dec : EqDecision arch.
Proof. solve_decision. Defined.

(** The operating systems for which compilers define [__APPLE__]. *)
Definition is_apple (o : os) : bool :=
  match o with
  | MacOS | IOS => true
  | Linux | Windows | FreeBSD => false
  end.

(** The macros a compiler predefines for a target.  They are the
    toolchain's, not the repository's; the header reads two of them.
    Apple's and the Unix compilers follow the GNU names, Windows is taken
    with its native compiler, which has names of its own. *)
Definition os_macros (o : os) : gset string :=
  match o with
  | MacOS => {[ "__APPLE__"; "__MACH__" ]}
  | IOS => {[ "__APPLE__"; "__MACH__" ]}
  | Linux => {[ "__linux__"; "__unix__" ]}
  | Windows => {[ "_WIN32" ]}
  | FreeBSD => {[ "__FreeBSD__"; "__unix__" ]}
  end.

Definition gnu_arch_macros (a : arch) : gset string :=
  match a with
  | X86_64 => {[ "__x86_64__"; "__amd64__" ]}
  | Arm64 => {[ "__aarch64__"; "__arm64__" ]}
  | I386 => {[ "__i386__" ]}
  | Armv7 => {[ "__arm__" ]}
  | Riscv64 => {[ "__riscv" ]}
  end.

Definition msvc_arch_macros (a : arch) : gset string :=
  match a with
  | X86_64 => {[ "_M_X64"; "_M_AMD64" ]}
  | Arm64 => {[ "_M_ARM64" ]}
  | I386 => {[ "_M_IX86" ]}
  | Armv7 => {[ "_M_ARM" ]}
  | Riscv64 => ∅
  end.

Definition arch_macros (o : os) (a : arch) : gset string :=
  match o with
  | Windows => msvc_arch_macros a
  | MacOS | IOS | Linux | FreeBSD => gnu_arch_macros a
  end.

Definition predefined (t : target) : gset string :=
  os_macros (target_os t) ∪ arch_macros (target_os t) (target_arch t).

(** [D] is a macro table with which a translation unit for target [t] can
    start: the header has not been seen (its guard name is not defined),
    [__APPLE__] tells whether the operating system is Apple's and, on
    Apple's compilers, [__x86_64__] tells whether the architecture is
    x86_64.  Anything else may be defined or not. *)
Definition table_for (t : target) (D : gset string) : Prop :=
  ("CFREETDS_H" ∉ D)
  ∧ ("__APPLE__" ∈ D ↔ is_apple (target_os t) = true)
  ∧ (is_apple (target_os t) = true →
     ("__x86_64__" ∈ D ↔ target_arch t = X86_64)).

#[global] Instance table_for_dec t D : Decision (table_for t D).
Proof. unfold table_for. apply _. Defined.

(** The branch of the header a target falls into, read off the two
    conditionals: [#ifdef __APPLE__], and inside it [#ifdef __x86_64__]. *)
Definition branch_of (t : target) : CFreeTDS.branch :=
  if is_apple (target_os t)
  then if decide (target_arch t = X86_64)
       then CFreeTDS.UsrLocal else CFreeTDS.Homebrew
  else CFreeTDS.SystemPath.

End Target.

(** ** The toolchain: how [#include] directives find files

    The lookup is the one GCC and Clang implement: a path that starts with
    [/] is opened as written; any other name is tried under each directory
    of a search list, which for the quoted form starts with the directory
    of the including file.  A directive whose file is not found is a fatal
    error and ends the compilation. *)

Module Toolchain.
Import Cpp CFreeTDS Target.

Record toolchain := {
  files : gset string;          (* the files that exist, by absolute path *)
  include_path : list string;   (* directories searched for <...> *)
  header_dir : string           (* directory of the including file *)
}.

Definition is_absolute (p : string) : bool :=
  match p with
  | String c _ => Ascii.eqb c "/"%char
  | EmptyString => false
  end.

(** The directories searched for a relative name: the quoted form looks
    next to the including file first, then where the angled form looks. *)
Definition search_dirs (tc : toolchain) (f : include_form) : list string :=
  match f with
  | Quoted => header_dir tc :: include_path tc
  | Angled => include_path tc
  end.

(** The file names tried for a directive, in order.  An absolute path is
    opened as written and nothing is searched. *)
Definition probes (tc : toolchain) (r : include_req) : list string :=
  if is_absolute (path r) then [path r]
  else (fun d => d +:+ "/" +:+ path r) <$> search_dirs tc (form r).

(** The file a directive opens: the first probe that exists. *)
Definition resolve (tc : toolchain) (r : include_req) : option string :=
  List.find (fun f => bool_decide (f ∈ files tc)) (probes tc r).

(** The name of a file: the text after the last [/] of its path. *)
Definition file_name (p : string) : string :=
  default p (after_last_slash p).

(** The directive finds its file. *)
Definition found (tc : toolchain) (r : include_req) : Prop :=
  is_Some (resolve tc r).

(** Result of compiling: the files opened, or the fatal error of the first
    directive whose file is not found. *)
Inductive outcome :=
| Compiled (opened : list string)
| FatalError (missing : include_req).

Fixpoint open_all (tc : toolchain) (rs : list include_req) : outcome :=
  match rs with
  | [] => Compiled []
  | r :: rs' =>
      match resolve tc r with
      | None => FatalError r
      | Some f =>
          match open_all tc rs' with
          | Compiled fs => Compiled (f :: fs)
          | FatalError m => FatalError m
          end
      end
  end.

(** Compiling a translation unit that starts with macro table [D] and
    includes the header. *)
Definition compile (tc : toolchain) (D : gset string) : outcome :=
  open_all tc (requests D).

(** Where the vendor headers are expected, in the specification's words:
    [/usr/local/opt/freetds/include/] on Intel macOS,
    [/opt/homebrew/opt/freetds/include/] on Apple Silicon macOS, the default
    include path on platforms that are not Apple's.  The specification
    names no location for other Apple targets. *)
Inductive location := Prefix (dir : string) | DefaultIncludePath.

Definition expected_location (t : target) : option location :=
  match target_os t, target_arch t with
  | MacOS, X86_64 => Some (Prefix "/usr/local/opt/freetds/include/")
  | MacOS, Arm64 => Some (Prefix "/opt/homebrew/opt/freetds/include/")
  | MacOS, _ => None
  | IOS, _ => None
  | _, _ => Some DefaultIncludePath
  end.

Definition present_at (tc : toolchain) (loc : location) (name : string) : Prop :=
  match loc with
  | Prefix dir => dir +:+ name ∈ files tc
  | DefaultIncludePath =>
      Exists (fun d => d +:+ "/" +:+ name ∈ files tc) (include_path tc)
  end.

Definition vendor_headers_present (tc : toolchain) (loc : location) : Prop :=
  present_at tc loc "sybdb.h" ∧ present_at tc loc "sybfront.h".

#[global] Instance present_at_dec tc loc name : Decision (present_at tc loc name).
Proof. destruct loc; simpl; apply _. Defined.

#[global] Instance vendor_headers_present_dec tc loc :
  Decision (vendor_headers_present tc loc).
Proof. unfold vendor_headers_present. apply _. Defined.

End Toolchain.

(** ** Some installations *)

Module Installations.
Import Toolchain.

(** A Mac with FreeTDS from Homebrew under [/opt/homebrew]. *)
Definition homebrew_mac : toolchain := {|
  files := {[ "/opt/homebrew/opt/freetds/include/sybdb.h";
              "/opt/homebrew/opt/freetds/include/sybfront.h" ]};
  include_path := [ "/usr/local/include"; "/usr/include" ];
  header_dir := "Sources/CFreeTDS/include"
|}.

(** A Linux machine with FreeTDS both from the distribution and built
    from source, searched in the default order. *)
Definition debian_default : toolchain := {|
  files := {[ "/usr/include/sybdb.h"; "/usr/include/sybfront.h";
              "/opt/freetds/include/sybdb.h";
              "/opt/freetds/include/sybfront.h" ]};
  include_path := [ "/usr/local/include"; "/usr/include" ];
  header_dir := "Sources/CFreeTDS/include"
|}.

(** The same machine, compiling with [/opt/freetds/include] put in front
    of the include search path. *)
Definition debian_opt_first : toolchain := {|
  files := files debian_default;
  include_path := "/opt/freetds/include" :: include_path debian_default;
  header_dir := header_dir debian_default
|}.

(** An Apple Silicon Mac on which an x86_64 build is made: FreeTDS is
    installed under [/opt/homebrew] only, and a copy of the headers is also
    reachable through the include search path. *)
Definition arm_homebrew_only : toolchain := {|
  files := {[ "/opt/homebrew/opt/freetds/include/sybdb.h";
              "/opt/homebrew/opt/freetds/include/sybfront.h";
              "/usr/local/include/sybdb.h";
              "/usr/local/include/sybfront.h" ]};
  include_path := [ "/usr/local/include"; "/usr/include" ];
  header_dir := "Sources/CFreeTDS/include"
|}.

End Installations.

(** * Properties of the header *)

Import Cpp CFreeTDS Target Toolchain Installations.

(** A decidable proposition about concrete data, settled by evaluating its
    decision procedure. *)
Ltac by_evaluation :=
  match goal with
  | |- ?P => apply (bool_decide_unpack P); vm_compute; exact I
  end.

(** ** The header on concrete builds *)

Example requests_x86_64_mac :
  requests (predefined (Target MacOS X86_64)) =
    [ Include Quoted "/usr/local/opt/freetds/include/sybdb.h";
      Include Quoted "/usr/local/opt/freetds/include/sybfront.h" ].
Proof. vm_compute. reflexivity. Qed.

Example requests_windows_x86_64 :
  requests (predefined (Target Windows X86_64)) =
    [ Include Angled "sybdb.h"; Include Angled "sybfront.h" ].
Proof. vm_compute. reflexivity. Qed.

Example requests_guard_already_defined :
  requests ({[ "CFREETDS_H" ]} ∪ predefined (Target Linux X86_64)) = [].
Proof. vm_compute. reflexivity. Qed.

Example compile_homebrew_mac :
  compile homebrew_mac (predefined (Target MacOS Arm64)) =
    Compiled [ "/opt/homebrew/opt/freetds/include/sybdb.h";
               "/opt/homebrew/opt/freetds/include/sybfront.h" ].
Proof. vm_compute. reflexivity. Qed.

Example compile_x86_64_mac_without_usr_local :
  compile homebrew_mac (predefined (Target MacOS X86_64)) =
    FatalError (Include Quoted "/usr/local/opt/freetds/include/sybdb.h").
Proof. vm_compute. reflexivity. Qed.

Example compile_linux_sybfront_missing :
  compile {| files := {[ "/usr/include/sybdb.h" ]};
             include_path := [ "/usr/local/include"; "/usr/include" ];
             header_dir := "Sources/CFreeTDS/include" |}
          (predefined (Target Linux Arm64)) =
    FatalError (Include Angled "sybfront.h").
Proof. vm_compute. reflexivity. Qed.

Example included_three_times :
  trace (exec (times 3 include_CFreeTDS) (start (predefined (Target IOS Arm64))))
  = [ Include Quoted "/opt/homebrew/opt/freetds/include/sybdb.h";
      Include Quoted "/opt/homebrew/opt/freetds/include/sybfront.h" ].
Proof. vm_compute. reflexivity. Qed.

(** ** Running the directives *)

Section Directives.

Variable st : pp_state.
Variables thn els body : PP unit.
Variable m : string.

Lemma exec_ifdef_defined :
  m ∈ macros st → exec (ifdef m thn els) st = exec thn st.
Proof.
  intros Hm. unfold exec, ifdef, mbind, pp_bind, defined.
  by rewrite bool_decide_eq_true_2.
Qed.

Lemma exec_ifdef_undefined :
  m ∉ macros st → exec (ifdef m thn els) st = exec els st.
Proof.
  intros Hm. unfold exec, ifdef, mbind, pp_bind, defined.
  by rewrite bool_decide_eq_false_2.
Qed.

Lemma exec_ifndef_defined :
  m ∈ macros st → exec (ifndef m body) st = st.
Proof.
  intros Hm. unfold exec, ifndef, mbind, pp_bind, defined.
  by rewrite bool_decide_eq_true_2.
Qed.

Lemma exec_ifndef_undefined :
  m ∉ macros st → exec (ifndef m body) st = exec body st.
Proof.
  intros Hm. unfold exec, ifndef, mbind, pp_bind, defined.
  by rewrite bool_decide_eq_false_2.
Qed.

Lemma exec_seq (a b : PP unit) : exec (a ;; b) st = exec b (exec a st).
Proof. unfold exec, mbind, pp_bind. by destruct (a st). Qed.

End Directives.

Lemma guarded_macro (m : string) st :
  m ≠ "CFREETDS_H" → m ∈ macros (guarded st) ↔ m ∈ macros st.
Proof.
  intros Hm. simpl. rewrite elem_of_union, elem_of_singleton. tauto.
Qed.

Lemma exec_CFreeTDS_h_fresh st :
  "CFREETDS_H" ∉ macros st →
  exec CFreeTDS_h st
  = extend (guarded st) (branch_requests (selected (macros st))).
Proof.
  intros Hg. unfold CFreeTDS_h.
  rewrite exec_ifndef_undefined by done.
  rewrite !exec_seq.
  change (exec (pragma_once this_file) (exec (define "CFREETDS_H") st))
    with (guarded st).
  unfold selected.
  destruct (decide ("__APPLE__" ∈ macros st)) as [Ha|Ha].
  - rewrite exec_ifdef_defined by (by apply guarded_macro).
    rewrite (bool_decide_eq_true_2 _ Ha).
    destruct (decide ("__x86_64__" ∈ macros st)) as [Hx|Hx].
    + rewrite exec_ifdef_defined by (by apply guarded_macro).
      rewrite (bool_decide_eq_true_2 _ Hx).
      unfold exec, extend; simpl. by rewrite <- app_assoc.
    + rewrite exec_ifdef_undefined by (by rewrite guarded_macro).
      rewrite (bool_decide_eq_false_2 _ Hx).
      unfold exec, extend; simpl. by rewrite <- app_assoc.
  - rewrite exec_ifdef_undefined by (by rewrite guarded_macro).
    rewrite (bool_decide_eq_false_2 _ Ha).
    unfold exec, extend; simpl. by rewrite <- app_assoc.
Qed.

Lemma exec_CFreeTDS_h_seen st :
  "CFREETDS_H" ∈ macros st → exec CFreeTDS_h st = st.
Proof. intros Hg. unfold CFreeTDS_h. by rewrite exec_ifndef_defined. Qed.

Lemma requests_selected D :
  "CFREETDS_H" ∉ D → requests D = branch_requests (selected D).
Proof.
  intros Hg. unfold requests, include_CFreeTDS, include_file, exec.
  rewrite bool_decide_eq_false_2 by (simpl; set_solver).
  fold (exec CFreeTDS_h (start D)).
  by rewrite exec_CFreeTDS_h_fresh.
Qed.

Lemma selected_for_target t D : table_for t D → selected D = branch_of t.
Proof.
  intros (_ & Ha & Hx). unfold selected, branch_of.
  destruct (is_apple (target_os t)).
  - specialize (Hx eq_refl).
    rewrite bool_decide_eq_true_2 by (by apply Ha).
    destruct (decide (target_arch t = X86_64)) as [E|E].
    + by rewrite bool_decide_eq_true_2 by (by apply Hx).
    + by rewrite bool_decide_eq_false_2 by (by rewrite Hx).
  - by rewrite bool_decide_eq_false_2 by (by rewrite Ha).
Qed.

Lemma requests_for_target t D :
  table_for t D → requests D = branch_requests (branch_of t).
Proof.
  intros HD. rewrite requests_selected by apply HD.
  by rewrite (selected_for_target t).
Qed.

Lemma predefined_table_for t : table_for t (predefined t).
Proof. destruct t as [[] []]; by_evaluation. Qed.

(** ** Which directives each platform reaches *)

(** C1.  For every build target the header picks the location of
    [sybdb.h] and [sybfront.h] by platform: on Intel (x86_64) macOS both
    are included by their absolute path under
    [/usr/local/opt/freetds/include/], on Apple Silicon macOS by their
    absolute path under [/opt/homebrew/opt/freetds/include/], and on every
    platform that is not Apple's both are included with angle brackets,
    that is from the include search path. *)
Theorem include_locations_by_platform (t : target) (D : gset string) :
  table_for t D →
  (target_os t = MacOS → target_arch t = X86_64 →
     requests D =
       [ Include Quoted "/usr/local/opt/freetds/include/sybdb.h";
         Include Quoted "/usr/local/opt/freetds/include/sybfront.h" ])
  ∧ (target_os t = MacOS → target_arch t = Arm64 →
     requests D =
       [ Include Quoted "/opt/homebrew/opt/freetds/include/sybdb.h";
         Include Quoted "/opt/homebrew/opt/freetds/include/sybfront.h" ])
  ∧ (is_apple (target_os t) = false →
     requests D = [ Include Angled "sybdb.h"; Include Angled "sybfront.h" ]).
Proof.
  intros HD. rewrite (requests_for_target t D HD). unfold branch_of.
  repeat split.
  - intros -> ->. reflexivity.
  - intros -> ->. reflexivity.
  - intros ->. reflexivity.
Qed.

Lemma include_locations_by_platform_witness :
  table_for (Target MacOS Arm64) (predefined (Target MacOS Arm64))
  ∧ requests (predefined (Target MacOS Arm64)) =
      [ Include Quoted "/opt/homebrew/opt/freetds/include/sybdb.h";
        Include Quoted "/opt/homebrew/opt/freetds/include/sybfront.h" ].
Proof.
  assert (H : table_for (Target MacOS Arm64) (predefined (Target MacOS Arm64)))
    by by_evaluation.
  split; [exact H|].
  apply (include_locations_by_platform _ _ H); reflexivity.
Defined.

(** C3.  On every platform the header forwards exactly the two headers
    [sybdb.h] and [sybfront.h]: whichever branch is taken, the files
    included are these two, no other and neither missing, and [sybdb.h]
    comes before [sybfront.h]. *)
Theorem exactly_sybdb_then_sybfront (t : target) (D : gset string) :
  table_for t D →
  header_name <$> requests D = [ "sybdb.h"; "sybfront.h" ].
Proof.
  intros HD. rewrite (requests_for_target t D HD).
  by destruct (branch_of t).
Qed.

Lemma exactly_sybdb_then_sybfront_witness :
  header_name <$> requests (predefined (Target Linux Riscv64))
  = [ "sybdb.h"; "sybfront.h" ].
Proof.
  apply (exactly_sybdb_then_sybfront (Target Linux Riscv64)).
  by_evaluation.
Defined.

(** The three branches include different files. *)
Lemma branch_requests_inj b b' :
  branch_requests b = branch_requests b' → b = b'.
Proof. by destruct b, b'. Qed.

(** C4.  The include paths are a function of the operating system and the
    architecture alone: for every target exactly one of the three branches
    is taken, and two translation units for the same target reach the same
    two include paths, whatever else differs between their macro tables. *)
Theorem resolution_depends_on_target_only (t : target) (D1 D2 : gset string) :
  table_for t D1 → table_for t D2 →
  requests D1 = requests D2
  ∧ ∃ b, requests D1 = branch_requests b
         ∧ ∀ b', requests D1 = branch_requests b' → b' = b.
Proof.
  intros H1 H2.
  rewrite (requests_for_target t D1 H1), (requests_for_target t D2 H2).
  split; [done|].
  exists (branch_of t). split; [done|].
  intros b' Hb'. symmetry. by apply branch_requests_inj.
Qed.

Lemma resolution_depends_on_target_only_witness :
  requests (predefined (Target Linux Arm64))
  = requests ({[ "NDEBUG"; "__GNUC__" ]} ∪ predefined (Target Linux Arm64)).
Proof.
  apply (resolution_depends_on_target_only (Target Linux Arm64));
    by_evaluation.
Defined.

(** C5, as the code has it.  On an Apple target the [/usr/local] paths are
    taken if and only if the architecture is x86_64, and the
    [/opt/homebrew] paths if and only if it is not x86_64; Apple Silicon is
    one such architecture. *)
Theorem apple_x86_64_or_homebrew (t : target) (D : gset string) :
  table_for t D → is_apple (target_os t) = true →
  (requests D = branch_requests UsrLocal ↔ target_arch t = X86_64)
  ∧ (requests D = branch_requests Homebrew ↔ target_arch t ≠ X86_64)
  ∧ (target_arch t = Arm64 → requests D = branch_requests Homebrew).
Proof.
  intros HD Happle. rewrite (requests_for_target t D HD).
  unfold branch_of. rewrite Happle.
  destruct (decide (target_arch t = X86_64)) as [E|E].
  - rewrite E. repeat split; done.
  - repeat split; done.
Qed.

Lemma apple_x86_64_or_homebrew_witness :
  requests (predefined (Target IOS Armv7)) = branch_requests Homebrew.
Proof.
  assert (HD : table_for (Target IOS Armv7) (predefined (Target IOS Armv7)))
    by by_evaluation.
  destruct (apple_x86_64_or_homebrew (Target IOS Armv7) _ HD eq_refl)
    as (_ & [_ H] & _).
  apply H. discriminate.
Defined.

(** C5 as stated fails: a 32-bit Intel macOS target is not Apple Silicon,
    and it takes the [/opt/homebrew] paths. *)
Lemma homebrew_without_apple_silicon :
  table_for (Target MacOS I386) (predefined (Target MacOS I386))
  ∧ is_apple (target_os (Target MacOS I386)) = true
  ∧ ¬ (requests (predefined (Target MacOS I386)) =
         [ Include Quoted "/opt/homebrew/opt/freetds/include/sybdb.h";
           Include Quoted "/opt/homebrew/opt/freetds/include/sybfront.h" ]
       ↔ target_arch (Target MacOS I386) = Arm64).
Proof.
  split; [by_evaluation|].
  split; [reflexivity|].
  intros [H _]. by specialize (H eq_refl).
Qed.

(** C8.  On Apple platforms every architecture other than x86_64 takes the
    [/opt/homebrew] paths: the architecture is only tested for x86_64, so
    Apple Silicon, 32-bit and any other Apple architecture fall into the
    same [#else] branch. *)
Theorem apple_not_x86_64_is_homebrew (t : target) (D : gset string) :
  table_for t D →
  is_apple (target_os t) = true → target_arch t ≠ X86_64 →
  requests D =
    [ Include Quoted "/opt/homebrew/opt/freetds/include/sybdb.h";
      Include Quoted "/opt/homebrew/opt/freetds/include/sybfront.h" ].
Proof.
  intros HD Happle Harch. rewrite (requests_for_target t D HD).
  unfold branch_of. rewrite Happle. by rewrite decide_False.
Qed.

Lemma apple_not_x86_64_is_homebrew_witness :
  requests (predefined (Target MacOS I386)) =
    [ Include Quoted "/opt/homebrew/opt/freetds/include/sybdb.h";
      Include Quoted "/opt/homebrew/opt/freetds/include/sybfront.h" ].
Proof.
  apply (apple_not_x86_64_is_homebrew (Target MacOS I386)).
  - by_evaluation.
  - reflexivity.
  - discriminate.
Defined.

(** ** Finding the files *)

Section Resolution.

Variable tc : toolchain.

Lemma resolve_is_Some r :
  is_Some (resolve tc r) ↔ Exists (fun f => f ∈ files tc) (probes tc r).
Proof.
  unfold resolve. induction (probes tc r) as [|f fs IH]; simpl.
  - rewrite Exists_nil. split; [by intros [? ?]|done].
  - rewrite Exists_cons. case_bool_decide as Hf.
    + split; [by left|by eexists].
    + rewrite IH. tauto.
Qed.

Lemma resolve_absolute f p :
  is_absolute p = true → is_Some (resolve tc (Include f p)) ↔ p ∈ files tc.
Proof.
  intros Hp. rewrite resolve_is_Some. unfold probes; simpl. rewrite Hp.
  rewrite Exists_cons, Exists_nil. tauto.
Qed.

Lemma resolve_angled_relative p :
  is_absolute p = false →
  is_Some (resolve tc (Include Angled p))
  ↔ Exists (fun d => d +:+ "/" +:+ p ∈ files tc) (include_path tc).
Proof.
  intros Hp. rewrite resolve_is_Some. unfold probes; simpl. rewrite Hp.
  by rewrite Exists_fmap.
Qed.

Lemma open_all_compiled rs :
  (∃ opened, open_all tc rs = Compiled opened) ↔ Forall (found tc) rs.
Proof.
  induction rs as [|r rs IH]; simpl.
  - split; [constructor|by eexists].
  - rewrite Forall_cons, <- IH. unfold found.
    destruct (resolve tc r) as [f|].
    + destruct (open_all tc rs) as [fs|m].
      * split; [|by eexists]. intros _. split; by eexists.
      * split; [by intros [? ?]|]. by intros [_ [? ?]].
    + split; [by intros [? ?]|]. by intros [[? ?] _].
Qed.

(** A directive whose file is not found is fatal at once: the error names
    the first such directive and nothing after it is opened. *)
Lemma open_all_fatal rs :
  ¬ Forall (found tc) rs →
  ∃ pre r post,
    rs = pre ++ r :: post ∧ Forall (found tc) pre
    ∧ resolve tc r = None ∧ open_all tc rs = FatalError r.
Proof.
  induction rs as [|r rs IH]; intros Hnot.
  - destruct Hnot. constructor.
  - simpl. destruct (resolve tc r) as [f|] eqn:Hr.
    + destruct IH as (pre & q & post & -> & Hpre & Hq & Hopen).
      { intros Hrs. apply Hnot. constructor; [|done].
        unfold found. by rewrite Hr. }
      exists (r :: pre), q, post. rewrite Hopen.
      repeat split; try done.
      constructor; [|done]. unfold found. by rewrite Hr.
    + exists [], r, rs. repeat split; done.
Qed.

Lemma open_all_congruent (tc' : toolchain) rs :
  Forall (fun r => resolve tc r = resolve tc' r) rs →
  open_all tc rs = open_all tc' rs.
Proof.
  induction 1 as [|r rs Hr _ IH]; simpl; [done|].
  by rewrite Hr, IH.
Qed.

End Resolution.

(** The directives of a supported target find their files exactly when the
    vendor headers are where the specification expects them. *)
Lemma found_iff_present t D tc loc :
  table_for t D → expected_location t = Some loc →
  Forall (fun r => is_Some (resolve tc r)) (requests D)
  ↔ vendor_headers_present tc loc.
Proof.
  intros HD Hloc. rewrite (requests_for_target t D HD).
  unfold vendor_headers_present.
  destruct t as [[] []]; simpl in Hloc; try discriminate;
    injection Hloc as <-;
    match goal with
    | |- context [branch_of ?t] =>
        let b := eval vm_compute in (branch_of t) in
        change (branch_of t) with b
    end;
    cbn [branch_requests];
    rewrite !Forall_cons, Forall_nil;
    rewrite ?resolve_absolute, ?resolve_angled_relative by reflexivity;
    simpl; tauto.
Qed.

(** ** Compiling *)

(** C2.  For every supported combination of operating system and
    architecture, a translation unit that includes the header compiles if
    and only if [sybdb.h] and [sybfront.h] are present at the location
    expected for the platform.  When they are not, compiling ends in a
    fatal error at the first directive whose file is missing: the
    directives before it were found, nothing else is tried for it and the
    result is the error itself. *)
Theorem compiles_iff_vendor_headers_present
    (t : target) (D : gset string) (tc : toolchain) (loc : location) :
  table_for t D → expected_location t = Some loc →
  ((∃ opened, compile tc D = Compiled opened) ↔ vendor_headers_present tc loc)
  ∧ (¬ vendor_headers_present tc loc →
     ∃ pre r post,
       requests D = pre ++ r :: post
       ∧ Forall (fun q => is_Some (resolve tc q)) pre
       ∧ resolve tc r = None
       ∧ compile tc D = FatalError r).
Proof.
  intros HD Hloc. unfold compile. split.
  - rewrite open_all_compiled. by apply (found_iff_present t).
  - intros Habsent. apply open_all_fatal.
    by rewrite (found_iff_present t D tc loc).
Qed.

Lemma compiles_iff_vendor_headers_present_witness :
  table_for (Target MacOS Arm64) (predefined (Target MacOS Arm64))
  ∧ expected_location (Target MacOS Arm64)
    = Some (Prefix "/opt/homebrew/opt/freetds/include/")
  ∧ ∃ opened,
      compile homebrew_mac (predefined (Target MacOS Arm64)) = Compiled opened.
Proof.
  assert (HD : table_for (Target MacOS Arm64) (predefined (Target MacOS Arm64)))
    by by_evaluation.
  split; [exact HD|]. split; [reflexivity|].
  apply (compiles_iff_vendor_headers_present
           (Target MacOS Arm64) _ homebrew_mac _ HD eq_refl).
  by_evaluation.
Defined.

(** C9.  On a platform that is not Apple's the architecture plays no part:
    two translation units for the same operating system and different
    architectures reach the same two directives, [<sybdb.h>] and
    [<sybfront.h>], and with the same toolchain they compile to the same
    result. *)
Theorem non_apple_ignores_architecture
    (o : os) (a1 a2 : arch) (D1 D2 : gset string) (tc : toolchain) :
  is_apple o = false →
  table_for (Target o a1) D1 → table_for (Target o a2) D2 →
  requests D1 = [ Include Angled "sybdb.h"; Include Angled "sybfront.h" ]
  ∧ requests D2 = [ Include Angled "sybdb.h"; Include Angled "sybfront.h" ]
  ∧ compile tc D1 = compile tc D2.
Proof.
  intros Ho H1 H2. unfold compile.
  rewrite (requests_for_target _ D1 H1), (requests_for_target _ D2 H2).
  unfold branch_of. cbn [target_os]. by rewrite Ho.
Qed.

Lemma non_apple_ignores_architecture_witness :
  compile debian_default (predefined (Target Linux X86_64))
  = compile debian_default (predefined (Target Linux Arm64)).
Proof.
  apply (non_apple_ignores_architecture Linux X86_64 Arm64);
    [reflexivity | by_evaluation ..].
Defined.

(** ** Fixed locations *)

Lemma apple_probes_literal t :
  is_apple (target_os t) = true →
  Forall (fun r => ∀ tc, probes tc r = [path r]) (branch_requests (branch_of t)).
Proof.
  intros Happle. unfold branch_of. rewrite Happle.
  destruct (decide (target_arch t = X86_64)); by repeat constructor.
Qed.

Lemma resolve_congruent tc tc' r :
  probes tc r = probes tc' r → files tc = files tc' →
  resolve tc r = resolve tc' r.
Proof. intros Hp Hf. unfold resolve. by rewrite Hp, Hf. Qed.

(** C6, as the code has it.  The selection is keyed only on the operating
    system and the architecture.  On an Apple target the two directives
    carry absolute paths written in the file, so the files tried are these
    literals whatever the include search path and the directory of the
    including file, and with the same file system every toolchain compiles
    to the same result.  On other targets the directives are the constants
    [<sybdb.h>] and [<sybfront.h>], and the files tried are these names
    under each directory of the toolchain's include search path. *)
Theorem locations_fixed_on_apple
    (t : target) (D D' : gset string) (tc tc' : toolchain) :
  table_for t D → table_for t D' →
  requests D' = requests D
  ∧ (is_apple (target_os t) = true →
       Forall (fun r => probes tc r = [path r]) (requests D)
       ∧ probes tc <$> requests D = probes tc' <$> requests D
       ∧ (files tc = files tc' → compile tc D = compile tc' D))
  ∧ (is_apple (target_os t) = false →
       probes tc <$> requests D =
         [ (fun d => d +:+ "/" +:+ "sybdb.h") <$> include_path tc;
           (fun d => d +:+ "/" +:+ "sybfront.h") <$> include_path tc ]).
Proof.
  intros HD HD'. unfold compile.
  rewrite (requests_for_target t D HD), (requests_for_target t D' HD').
  split; [done|]. split; intros Happle.
  - pose proof (apple_probes_literal t Happle) as Hlit.
    repeat split.
    + eapply Forall_impl; [exact Hlit|]. by intros r Hr.
    + apply Forall_fmap_ext_1.
      eapply Forall_impl; [exact Hlit|]. intros r Hr. by rewrite !Hr.
    + intros Hfiles. apply open_all_congruent.
      eapply Forall_impl; [exact Hlit|]. intros r Hr.
      apply resolve_congruent; [by rewrite !Hr|done].
  - unfold branch_of. by rewrite Happle.
Qed.

Lemma locations_fixed_on_apple_witness :
  probes homebrew_mac <$> requests (predefined (Target MacOS Arm64))
  = probes debian_opt_first <$> requests (predefined (Target MacOS Arm64)).
Proof.
  assert (HD : table_for (Target MacOS Arm64) (predefined (Target MacOS Arm64)))
    by by_evaluation.
  destruct (locations_fixed_on_apple
              (Target MacOS Arm64) _ _ homebrew_mac debian_opt_first HD HD)
    as (_ & H & _).
  by destruct (H eq_refl) as (_ & Heq & _).
Defined.

(** C6 as stated fails off Apple platforms: for one Linux target and one
    file system, the files the two directives resolve to change with the
    include search path the compiler is given. *)
Lemma resolved_location_follows_include_path :
  table_for (Target Linux X86_64) (predefined (Target Linux X86_64))
  ∧ files debian_default = files debian_opt_first
  ∧ compile debian_default (predefined (Target Linux X86_64))
    = Compiled [ "/usr/include/sybdb.h"; "/usr/include/sybfront.h" ]
  ∧ compile debian_opt_first (predefined (Target Linux X86_64))
    = Compiled [ "/opt/freetds/include/sybdb.h";
                 "/opt/freetds/include/sybfront.h" ]
  ∧ compile debian_default (predefined (Target Linux X86_64))
    ≠ compile debian_opt_first (predefined (Target Linux X86_64)).
Proof.
  split; [by_evaluation|]. split; [reflexivity|].
  assert (H1 : compile debian_default (predefined (Target Linux X86_64))
               = Compiled [ "/usr/include/sybdb.h"; "/usr/include/sybfront.h" ])
    by (vm_compute; reflexivity).
  assert (H2 : compile debian_opt_first (predefined (Target Linux X86_64))
               = Compiled [ "/opt/freetds/include/sybdb.h";
                            "/opt/freetds/include/sybfront.h" ])
    by (vm_compute; reflexivity).
  split; [exact H1|]. split; [exact H2|].
  rewrite H1, H2. discriminate.
Qed.

(** ** Repeated inclusion *)

Lemma CFreeTDS_h_idempotent st :
  exec CFreeTDS_h (exec CFreeTDS_h st) = exec CFreeTDS_h st.
Proof.
  destruct (decide ("CFREETDS_H" ∈ macros st)) as [Hg|Hg].
  - by rewrite !(exec_CFreeTDS_h_seen st Hg).
  - rewrite (exec_CFreeTDS_h_fresh st Hg).
    apply exec_CFreeTDS_h_seen. simpl. set_solver.
Qed.

Lemma exec_include_marked st :
  this_file ∈ once st → exec include_CFreeTDS st = st.
Proof.
  intros Ho. unfold exec, include_CFreeTDS, include_file.
  by rewrite bool_decide_eq_true_2.
Qed.

Lemma exec_include_unmarked st :
  this_file ∉ once st → exec include_CFreeTDS st = exec CFreeTDS_h st.
Proof.
  intros Ho. unfold exec, include_CFreeTDS, include_file.
  by rewrite bool_decide_eq_false_2.
Qed.

Lemma include_CFreeTDS_idempotent st :
  exec include_CFreeTDS (exec include_CFreeTDS st) = exec include_CFreeTDS st.
Proof.
  destruct (decide (this_file ∈ once st)) as [Ho|Ho].
  - by rewrite !(exec_include_marked st Ho).
  - rewrite (exec_include_unmarked st Ho).
    destruct (decide ("CFREETDS_H" ∈ macros st)) as [Hg|Hg].
    + rewrite (exec_CFreeTDS_h_seen st Hg).
      rewrite (exec_include_unmarked st Ho). by apply exec_CFreeTDS_h_seen.
    + rewrite (exec_CFreeTDS_h_fresh st Hg).
      apply exec_include_marked. simpl. set_solver.
Qed.

Lemma times_idempotent (m : PP unit) :
  (∀ st, exec m (exec m st) = exec m st) →
  ∀ n st, exec (times (S n) m) st = exec m st.
Proof.
  intros Hm. induction n as [|n IH]; intros st.
  - cbn [times]. by rewrite exec_seq.
  - change (times (S (S n)) m) with (m ;; times (S n) m).
    by rewrite exec_seq, IH.
Qed.

Lemma trace_of_inclusion D :
  trace (exec include_CFreeTDS (start D)) = []
  ∨ ∃ b, trace (exec include_CFreeTDS (start D)) = branch_requests b.
Proof.
  destruct (decide ("CFREETDS_H" ∈ D)) as [Hg|Hg].
  - left. rewrite exec_include_unmarked by (simpl; set_solver).
    by rewrite exec_CFreeTDS_h_seen.
  - right. exists (selected D). by apply requests_selected.
Qed.

(** C7.  Including the header several times in one translation unit is the
    same as including it once.  The [CFREETDS_H] guard alone makes a second
    reading of the directives change nothing, and with [#pragma once] the
    file is not read again; so in a translation unit that includes the
    header any number of times each vendor header is forwarded at most
    once. *)
Theorem repeated_inclusion_is_idempotent
    (n : nat) (st : pp_state) (D : gset string) :
  exec (times (S n) include_CFreeTDS) st = exec include_CFreeTDS st
  ∧ exec (times (S n) CFreeTDS_h) st = exec CFreeTDS_h st
  ∧ NoDup (header_name <$> trace (exec (times n include_CFreeTDS) (start D))).
Proof.
  split; [apply times_idempotent, include_CFreeTDS_idempotent|].
  split; [apply times_idempotent, CFreeTDS_h_idempotent|].
  destruct n as [|n].
  - simpl. constructor.
  - rewrite (times_idempotent _ include_CFreeTDS_idempotent).
    destruct (trace_of_inclusion D) as [->|[b ->]].
    + constructor.
    + destruct b; by_evaluation.
Qed.

(** * Further properties of the header *)

(** ** The header in the middle of a translation unit *)

Lemma exec_include_cases st :
  exec include_CFreeTDS st =
    if bool_decide (this_file ∈ once st ∨ "CFREETDS_H" ∈ macros st)
    then st
    else extend (guarded st) (branch_requests (selected (macros st))).
Proof.
  destruct (decide (this_file ∈ once st)) as [Ho|Ho].
  - rewrite bool_decide_eq_true_2 by tauto. by apply exec_include_marked.
  - rewrite (exec_include_unmarked st Ho).
    destruct (decide ("CFREETDS_H" ∈ macros st)) as [Hg|Hg].
    + rewrite bool_decide_eq_true_2 by tauto. by apply exec_CFreeTDS_h_seen.
    + rewrite bool_decide_eq_false_2 by tauto. by apply exec_CFreeTDS_h_fresh.
Qed.

Lemma start_unseen D :
  "CFREETDS_H" ∉ D →
  ¬ (this_file ∈ once (start D) ∨ "CFREETDS_H" ∈ macros (start D)).
Proof. simpl. rewrite elem_of_empty. tauto. Qed.

Lemma start_seen D :
  "CFREETDS_H" ∈ D →
  this_file ∈ once (start D) ∨ "CFREETDS_H" ∈ macros (start D).
Proof. by right. Qed.

(** X1.  Wherever in a translation unit the header is included, it does one
    of two things.  If its guard name is defined or the file is marked
    [#pragma once], nothing changes.  Otherwise [CFREETDS_H] becomes
    defined, the file becomes marked, and the two directives of the branch
    chosen by the macro table of that moment are reached after the
    directives reached before, which are kept as they were. *)
Theorem inclusion_in_any_state (st : pp_state) :
  (this_file ∈ once st ∨ "CFREETDS_H" ∈ macros st →
     exec include_CFreeTDS st = st)
  ∧ (this_file ∉ once st → "CFREETDS_H" ∉ macros st →
     macros (exec include_CFreeTDS st) = {[ "CFREETDS_H" ]} ∪ macros st
     ∧ once (exec include_CFreeTDS st) = {[ this_file ]} ∪ once st
     ∧ trace (exec include_CFreeTDS st)
       = trace st ++
           (if bool_decide ("__APPLE__" ∈ macros st)
            then if bool_decide ("__x86_64__" ∈ macros st)
                 then branch_requests UsrLocal
                 else branch_requests Homebrew
            else branch_requests SystemPath)).
Proof.
  rewrite exec_include_cases. split.
  - intros H. by rewrite bool_decide_eq_true_2.
  - intros Ho Hg. rewrite bool_decide_eq_false_2 by tauto.
    unfold extend, guarded, selected; simpl.
    repeat split. by repeat case_bool_decide.
Qed.

Lemma inclusion_in_any_state_witness :
  trace (exec include_CFreeTDS
           (PPState {[ "__APPLE__" ]} ∅ [ Include Angled "stdio.h" ]))
  = [ Include Angled "stdio.h";
      Include Quoted "/opt/homebrew/opt/freetds/include/sybdb.h";
      Include Quoted "/opt/homebrew/opt/freetds/include/sybfront.h" ].
Proof.
  destruct (inclusion_in_any_state
              (PPState {[ "__APPLE__" ]} ∅ [ Include Angled "stdio.h" ]))
    as [_ H].
  destruct H as (_ & _ & ->); [by_evaluation | by_evaluation |].
  vm_compute. reflexivity.
Defined.

(** X2.  The header defines no macro but its guard and undefines none: the
    macro table after an inclusion has every name it had before, and any
    name it has beyond those is [CFREETDS_H]. *)
Theorem defines_only_its_guard (st : pp_state) :
  macros st ⊆ macros (exec include_CFreeTDS st)
  ∧ ∀ m, m ∈ macros (exec include_CFreeTDS st) →
         m ∈ macros st ∨ m = "CFREETDS_H".
Proof.
  rewrite exec_include_cases. case_bool_decide.
  - split; [done|]. intros m Hm. by left.
  - unfold extend, guarded; simpl. split; [set_solver|].
    intros m. rewrite elem_of_union, elem_of_singleton. tauto.
Qed.

(** X3.  Once the header has been read, [#pragma once] keeps it from being
    read again whatever happens to the macro table in between: even if the
    guard name is undefined again, another inclusion reaches no further
    directive and changes nothing. *)
Theorem pragma_once_survives_macro_changes (D M : gset string) :
  "CFREETDS_H" ∉ D →
  exec include_CFreeTDS
    (PPState M (once (exec include_CFreeTDS (start D)))
               (trace (exec include_CFreeTDS (start D))))
  = PPState M ({[ this_file ]}) (requests D).
Proof.
  intros Hg. fold (requests D).
  assert (Ho : once (exec include_CFreeTDS (start D)) = {[ this_file ]}).
  { rewrite exec_include_cases.
    rewrite bool_decide_eq_false_2 by (by apply start_unseen).
    unfold extend, guarded; simpl. apply (right_id_L ∅ (∪)). }
  rewrite Ho. apply exec_include_marked. simpl.
  by apply elem_of_singleton.
Qed.

Lemma pragma_once_survives_macro_changes_witness :
  trace (exec include_CFreeTDS
           (PPState (predefined (Target Linux X86_64))
              (once (exec include_CFreeTDS
                       (start (predefined (Target Linux X86_64)))))
              (trace (exec include_CFreeTDS
                        (start (predefined (Target Linux X86_64)))))))
  = [ Include Angled "sybdb.h"; Include Angled "sybfront.h" ].
Proof.
  rewrite (pragma_once_survives_macro_changes
             (predefined (Target Linux X86_64))
             (predefined (Target Linux X86_64)));
    [|by_evaluation].
  vm_compute. reflexivity.
Defined.

(** X4.  A translation unit that starts with [CFREETDS_H] already defined
    gets nothing from the header: no directive is reached, the file is not
    even marked [#pragma once], and compiling succeeds with no file opened,
    whether FreeTDS is installed or not. *)
Theorem guard_defined_forwards_nothing (D : gset string) (tc : toolchain) :
  "CFREETDS_H" ∈ D →
  requests D = []
  ∧ once (exec include_CFreeTDS (start D)) = ∅
  ∧ compile tc D = Compiled [].
Proof.
  intros Hg. unfold compile, requests.
  rewrite exec_include_cases.
  by rewrite bool_decide_eq_true_2 by (by apply start_seen).
Qed.

Lemma guard_defined_forwards_nothing_witness :
  compile homebrew_mac ({[ "CFREETDS_H" ]} ∪ predefined (Target Linux X86_64))
  = Compiled [].
Proof.
  apply (guard_defined_forwards_nothing _ homebrew_mac). by_evaluation.
Defined.

(** X8.  The header reads three macro names and no other: two macro tables
    that agree on [CFREETDS_H], [__APPLE__] and [__x86_64__] reach the same
    directives, however they differ elsewhere. *)
Theorem reads_three_macros (D1 D2 : gset string) :
  ("CFREETDS_H" ∈ D1 ↔ "CFREETDS_H" ∈ D2) →
  ("__APPLE__" ∈ D1 ↔ "__APPLE__" ∈ D2) →
  ("__x86_64__" ∈ D1 ↔ "__x86_64__" ∈ D2) →
  requests D1 = requests D2.
Proof.
  intros Hg Ha Hx. unfold requests. rewrite !exec_include_cases.
  destruct (decide ("CFREETDS_H" ∈ D1)) as [H1|H1].
  - by rewrite !bool_decide_eq_true_2 by (apply start_seen; tauto).
  - rewrite !bool_decide_eq_false_2 by (apply start_unseen; tauto).
    unfold extend, selected; simpl.
    by rewrite (bool_decide_ext _ _ Ha), (bool_decide_ext _ _ Hx).
Qed.

Lemma reads_three_macros_witness :
  requests {[ "__APPLE__"; "__x86_64__" ]}
  = requests ({[ "DEBUG"; "__clang__" ]} ∪ predefined (Target MacOS X86_64)).
Proof.
  apply reads_three_macros; by_evaluation.
Defined.

(** ** What compiling opens and what it reports *)

Lemma after_last_slash_in_dir d n :
  after_last_slash n = None →
  after_last_slash (d +:+ "/" +:+ n) = Some n.
Proof.
  intros Hn. induction d as [|c d IH]; simpl.
  - change ("" +:+ n) with n. by rewrite Hn.
  - by rewrite IH.
Qed.

Lemma file_name_in_dir d n :
  after_last_slash n = None → file_name (d +:+ "/" +:+ n) = n.
Proof. intros Hn. unfold file_name. by rewrite after_last_slash_in_dir. Qed.

Lemma resolve_Some tc r f :
  resolve tc r = Some f → f ∈ probes tc r ∧ f ∈ files tc.
Proof.
  unfold resolve. intros Hf. apply find_some in Hf as [Hin Hex].
  split; [by apply list_elem_of_In|]. by apply bool_decide_eq_true in Hex.
Qed.

Lemma resolve_absolute_None tc f p :
  is_absolute p = true → p ∉ files tc → resolve tc (Include f p) = None.
Proof.
  intros Hp Hfile. apply eq_None_not_Some.
  by rewrite resolve_absolute.
Qed.

Lemma open_all_opened tc rs opened :
  open_all tc rs = Compiled opened →
  Forall2 (fun r f => resolve tc r = Some f) rs opened.
Proof.
  revert opened. induction rs as [|r rs IH]; simpl; intros opened Hopen.
  - injection Hopen as <-. constructor.
  - destruct (resolve tc r) as [f|] eqn:Hr; [|discriminate].
    destruct (open_all tc rs) as [fs|m]; [|discriminate].
    injection Hopen as <-. constructor; [done|by apply IH].
Qed.

(** A file tried for one of the header's directives has the name the
    directive asks for, in whatever directory it is tried. *)
Lemma probe_file_name tc b r f :
  r ∈ branch_requests b → f ∈ probes tc r → file_name f = header_name r.
Proof.
  intros Hr Hf.
  destruct b; cbn [branch_requests] in Hr;
    apply elem_of_cons in Hr as [->|Hr];
    try (apply elem_of_cons in Hr as [->|Hr]);
    try (by apply elem_of_nil in Hr);
    unfold probes in Hf; cbn [path form is_absolute Ascii.eqb] in Hf;
    simpl in Hf.
  1-4: by apply list_elem_of_singleton in Hf as ->.
  all: apply list_elem_of_fmap in Hf as (d & -> & _);
       by rewrite file_name_in_dir.
Qed.

Lemma opened_names tc b opened :
  Forall2 (fun r f => resolve tc r = Some f) (branch_requests b) opened →
  file_name <$> opened = header_name <$> branch_requests b
  ∧ Forall (fun f => f ∈ files tc) opened.
Proof.
  assert (Hgen : ∀ rs, (∀ r, r ∈ rs → r ∈ branch_requests b) →
            Forall2 (fun r f => resolve tc r = Some f) rs opened →
            file_name <$> opened = header_name <$> rs
            ∧ Forall (fun f => f ∈ files tc) opened).
  { intros rs Hsub H2. induction H2 as [|r f rs fs Hr _ IH].
    - by split.
    - apply resolve_Some in Hr as [Hprobe Hfile].
      destruct IH as [IHn IHf].
      { intros q Hq. apply Hsub. by right. }
      split; [|by constructor].
      rewrite !fmap_cons, IHn. f_equal.
      apply (probe_file_name tc b); [|done]. apply Hsub. by left. }
  by apply Hgen.
Qed.

(** X5.  When compiling succeeds on a first inclusion, exactly two files
    have been opened, they exist, and they are named [sybdb.h] and
    [sybfront.h] in this order, on every platform and wherever the search
    found them. *)
Theorem opened_files_are_the_vendor_headers
    (D : gset string) (tc : toolchain) (opened : list string) :
  "CFREETDS_H" ∉ D →
  compile tc D = Compiled opened →
  file_name <$> opened = [ "sybdb.h"; "sybfront.h" ]
  ∧ Forall (fun f => f ∈ files tc) opened.
Proof.
  intros Hg Hc. unfold compile in Hc.
  rewrite (requests_selected D Hg) in Hc.
  apply open_all_opened, opened_names in Hc as [Hn Hf].
  split; [|done]. rewrite Hn. by destruct (selected D).
Qed.

Lemma opened_files_are_the_vendor_headers_witness :
  file_name <$> [ "/opt/freetds/include/sybdb.h";
                  "/opt/freetds/include/sybfront.h" ]
  = [ "sybdb.h"; "sybfront.h" ].
Proof.
  eapply (opened_files_are_the_vendor_headers
            (predefined (Target Linux X86_64)) debian_opt_first).
  - by_evaluation.
  - vm_compute. reflexivity.
Defined.

(** X6.  A fatal error on a first inclusion names one of the header's two
    directives, and it names [sybfront.h] only when [sybdb.h] was found:
    the directives are tried in the order of the file and the first one
    that fails ends the compilation. *)
Theorem fatal_error_names_first_missing
    (D : gset string) (tc : toolchain) (r : include_req) :
  "CFREETDS_H" ∉ D →
  compile tc D = FatalError r →
  ∃ r0 r1,
    requests D = [ r0; r1 ]
    ∧ header_name r0 = "sybdb.h" ∧ header_name r1 = "sybfront.h"
    ∧ ((r = r0 ∧ resolve tc r0 = None)
       ∨ (r = r1 ∧ found tc r0 ∧ resolve tc r1 = None)).
Proof.
  intros Hg Hc. unfold compile in Hc.
  rewrite (requests_selected D Hg) in *.
  destruct (selected D); cbn [branch_requests open_all] in *;
    (eexists _, _; split; [reflexivity|]; split; [reflexivity|];
     split; [reflexivity|]);
    match type of Hc with
    | context [resolve tc ?a] =>
        destruct (resolve tc a) as [f0|] eqn:H0;
        [ | injection Hc as <-; by left ]
    end;
    match type of Hc with
    | context [resolve tc ?a] =>
        destruct (resolve tc a) as [f1|] eqn:H1;
        [ discriminate | injection Hc as <- ]
    end;
    right; unfold found; rewrite H0; by eauto.
Qed.

Lemma fatal_error_names_first_missing_witness :
  ∃ r0 r1,
    requests (predefined (Target MacOS X86_64)) = [ r0; r1 ]
    ∧ header_name r0 = "sybdb.h" ∧ header_name r1 = "sybfront.h"
    ∧ ((Include Quoted "/usr/local/opt/freetds/include/sybdb.h" = r0
        ∧ resolve homebrew_mac r0 = None)
       ∨ (Include Quoted "/usr/local/opt/freetds/include/sybdb.h" = r1
          ∧ found homebrew_mac r0 ∧ resolve homebrew_mac r1 = None)).
Proof.
  apply (fatal_error_names_first_missing
           (predefined (Target MacOS X86_64)) homebrew_mac).
  - by_evaluation.
  - vm_compute. reflexivity.
Defined.

(** X7.  On Apple targets there is no fallback from the hard-coded
    location: if [sybdb.h] is not at the absolute path of the target's
    branch, compiling fails on that directive, even when the headers are
    installed at the other branch's location or can be found through the
    include search path. *)
Theorem apple_no_fallback (t : target) (D : gset string) (tc : toolchain) :
  table_for t D → is_apple (target_os t) = true →
  (target_arch t = X86_64 →
     "/usr/local/opt/freetds/include/sybdb.h" ∉ files tc →
     compile tc D =
       FatalError (Include Quoted "/usr/local/opt/freetds/include/sybdb.h"))
  ∧ (target_arch t ≠ X86_64 →
     "/opt/homebrew/opt/freetds/include/sybdb.h" ∉ files tc →
     compile tc D =
       FatalError (Include Quoted "/opt/homebrew/opt/freetds/include/sybdb.h")).
Proof.
  intros HD Happle. unfold compile.
  rewrite (requests_for_target t D HD). unfold branch_of. rewrite Happle.
  split; intros Harch Hfile.
  - rewrite decide_True by done. cbn [branch_requests open_all].
    by rewrite resolve_absolute_None.
  - rewrite decide_False by done. cbn [branch_requests open_all].
    by rewrite resolve_absolute_None.
Qed.

Lemma apple_no_fallback_witness :
  found arm_homebrew_only (Include Angled "sybdb.h")
  ∧ found arm_homebrew_only
      (Include Quoted "/opt/homebrew/opt/freetds/include/sybdb.h")
  ∧ compile arm_homebrew_only (predefined (Target MacOS X86_64)) =
      FatalError (Include Quoted "/usr/local/opt/freetds/include/sybdb.h").
Proof.
  split; [vm_compute; by eexists|]. split; [vm_compute; by eexists|].
  assert (HD : table_for (Target MacOS X86_64) (predefined (Target MacOS X86_64)))
    by by_evaluation.
  apply (apple_no_fallback (Target MacOS X86_64) _ arm_homebrew_only HD eq_refl).
  - reflexivity.
  - by_evaluation.
Defined.
